(** * Conversation relay of [server.py]: a shallow embedding and its properties

    The module under study is the Flask handler [chat] of [server.py] (the
    third, uncommented draft, lines 129-192) together with the process-global
    list [messages].  Python values are embedded as an inductive type, the
    global transcript and the outbound calls as an explicit world that is
    threaded through the handler, and the hosted completion service as an
    oracle argument of the handler.  Requests are handled one at a time:
    the handler takes no lock, and interleavings of concurrent requests are
    not modelled. *)

From Stdlib Require Import NArith ZArith Floats.SpecFloat Strings.Ascii Strings.String.
From stdpp Require Import base option list gmap.

Set Warnings "-register-all".

(** ** Python values *)

(** A Python [str] is a sequence of Unicode code points. *)
Abbreviation pystr := (list N).

(** Code points of an ASCII literal of the source. *)
Fixpoint lit (s : String.string) : pystr :=
  match s with
  | String.EmptyString => []
  | String.String a s' => N_of_ascii a :: lit s'
  end.

#[global] Arguments lit : simpl never.

(** What [request.json] can produce: the Python image of a JSON document.
    A Python [float] is an IEEE-754 binary64 value, a [dict] built from a
    JSON object is a finite map from strings. *)
Inductive pyval : Type :=
  | PyNone
  | PyBool (b : bool)
  | PyInt (z : Z)
  | PyFloat (f : spec_float)
  | PyStr (s : pystr)
  | PyList (l : list pyval)
  | PyDict (d : gmap pystr pyval).

(** Python truth value testing, as used by [if not user_input]. *)
Definition truthy (v : pyval) : bool :=
  match v with
  | PyNone => false
  | PyBool b => b
  | PyInt z => negb (z =? 0)%Z
  | PyFloat (S754_zero _) => false
  | PyFloat _ => true
  | PyStr s => negb (bool_decide (s = []))
  | PyList l => match l with [] => false | _ :: _ => true end
  | PyDict d => negb (bool_decide (d = ∅))
  end.

(** The name [type(v).__name__] that CPython prints in its error messages. *)
Definition type_name (v : pyval) : pystr :=
  match v with
  | PyNone => lit "NoneType"
  | PyBool _ => lit "bool"
  | PyInt _ => lit "int"
  | PyFloat _ => lit "float"
  | PyStr _ => lit "str"
  | PyList _ => lit "list"
  | PyDict _ => lit "dict"
  end.

(** Exceptions.  [ClientError] stands for whatever the OpenAI client raises
    (connection failure, HTTP status error, ...); the handler only ever
    looks at [str(e)]. *)
Inductive exn_class : Type :=
  | AttributeError
  | IndexError
  | ClientError.

Record exn : Type := Exn { exn_cls : exn_class; exn_msg : pystr }.

(** [str(e)] *)
Definition str (e : exn) : pystr := exn_msg e.

Definition no_attribute (tyname attr : pystr) : exn :=
  Exn AttributeError
      (lit "'" ++ tyname ++ lit "' object has no attribute '" ++ attr ++ lit "'").

Definition index_out_of_range : exn :=
  Exn IndexError (lit "list index out of range").

(** ** String methods used by the handler *)

(** [s.startswith(prefix)] *)
Fixpoint startswith (s prefix : pystr) : bool :=
  match prefix, s with
  | [], _ => true
  | _ :: _, [] => false
  | p :: prefix', c :: s' => (c =? p)%N && startswith s' prefix'
  end.

(** [c.isspace()]: the code points CPython treats as whitespace, which are
    the ones [str.strip()] without argument removes. *)
Definition isspace (c : N) : bool :=
  ((9 <=? c) && (c <=? 13) || (28 <=? c) && (c <=? 32)
   || (c =? 133) || (c =? 160) || (c =? 5760)
   || (8192 <=? c) && (c <=? 8202)
   || (c =? 8232) || (c =? 8233) || (c =? 8239) || (c =? 8287)
   || (c =? 12288))%N.

Fixpoint lstrip (s : pystr) : pystr :=
  match s with
  | [] => []
  | c :: s' => if isspace c then lstrip s' else s
  end.

Definition rstrip (s : pystr) : pystr := reverse (lstrip (reverse s)).

(** [s.strip()] *)
Definition strip (s : pystr) : pystr := rstrip (lstrip s).

(** ** Turns of the transcript

    A turn is the dict [{"role": r, "content": c}]; the content is either a
    plain [str] or the two-element list of typed parts built at lines
    160-163. *)
Inductive role : Type := system | user | assistant.

Inductive part : Type :=
  | text_part (text : pystr)        (* {"type": "text", "text": text} *)
  | image_url_part (url : pystr).   (* {"type": "image_url", "image_url": {"url": url}} *)

Inductive content : Type :=
  | Text (s : pystr)
  | Parts (ps : list part).

Record turn : Type := Turn { turn_role : role; turn_content : content }.

(** The persona of line 146 and the instruction of line 161, as code points
    (both literals are Arabic text). *)
Definition persona : pystr :=
  [1571; 1606; 1578; 32; 1589; 1583; 1610; 1602; 32; 1584; 1603; 1610; 32;
   1578; 1578; 1581; 1583; 1579; 32; 1575; 1604; 1593; 1585; 1576; 1610;
   1577; 32; 1608; 1578; 1581; 1576; 32; 1571; 1606; 32; 1578; 1588; 1585;
   1581; 32; 1576; 1576; 1587; 1575; 1591; 1577; 32; 1608; 1603; 1571; 1606;
   1603; 32; 1578; 1578; 1581; 1583; 1579; 32; 1605; 1593; 32; 1589; 1583;
   1610; 1602; 1548; 32; 1576; 1573; 1580; 1575; 1576; 1575; 1578; 32; 1602;
   1589; 1610; 1585; 1577; 32; 1608; 1608; 1575; 1590; 1581; 1577; 32; 1608;
   1587; 1585; 1610; 1593; 1577; 46]%N.

Definition image_prompt : pystr :=
  [1605; 1575; 32; 1605; 1581; 1578; 1608; 1609; 32; 1607; 1584; 1607; 32;
   1575; 1604; 1589; 1608; 1585; 1577; 1567]%N.

Definition system_turn : turn := Turn system (Text persona).

(** ** The world: the global [messages] and the traffic to the service *)

(** What [client.chat.completions.create] does with the transcript it is
    given: it raises (an [Exception], which is what line 188 catches), or it
    returns a response whose [choices[i]] carry [message.content], a [str]
    or [None]. *)
Inductive outcome : Type :=
  | Raises (e : exn)
  | Completion (choices : list (option pystr)).

Abbreviation service := (list turn → outcome).

(** [messages] is the module-level list; [calls] records, in order, the
    [messages=] argument of every call made to the service. *)
Record world : Type := World { messages : list turn; calls : list (list turn) }.

(** [messages] at process start (lines 144-147); nothing has been sent. *)
Definition boot : world := World [system_turn] [].

(** The JSON body built by [jsonify] and the HTTP status returned with it. *)
Inductive body : Type :=
  | reply_body (reply : pystr)   (* {'reply': reply} *)
  | error_body (error : pystr).  (* {'error': error} *)

Record response : Type := Response { resp_body : body; resp_status : Z }.

(** ** Handler code as state-and-exception computations

    A computation reads and writes the world and either returns a value or
    raises.  An exception does not undo the writes made before it. *)
Definition M (A : Type) : Type := world → world * (exn + A).

Definition ret {A} (a : A) : M A := λ w, (w, inr a).

Definition raise {A} (e : exn) : M A := λ w, (w, inl e).

Definition bind {A B} (m : M A) (k : A → M B) : M B :=
  λ w, match m w with
       | (w', inr a) => k a w'
       | (w', inl e) => (w', inl e)
       end.

#[global] Instance M_ret : MRet M := @ret.
#[global] Instance M_bind : MBind M := λ A B k m, bind m k.

(** [try: body except Exception as e: handler(e)] *)
Definition try_except {A} (body : M A) (handler : exn → M A) : M A :=
  λ w, match body w with
       | (w', inr a) => (w', inr a)
       | (w', inl e) => handler e w'
       end.

Definition lift {A} (r : exn + A) : M A :=
  match r with inl e => raise e | inr a => ret a end.

(** Reading and rebinding the global [messages]. *)
Definition get_messages : M (list turn) := λ w, (w, inr (messages w)).

Definition set_messages (l : list turn) : M unit :=
  λ w, (World l (calls w), inr ()).

(** [messages.append(t)] *)
Definition append_message (t : turn) : M unit :=
  λ w, (World (messages w ++ [t]) (calls w), inr ()).

(** [client.chat.completions.create(model=..., messages=messages, ...)]:
    the model name and the sampling parameters are constants of the source
    and are part of the oracle. *)
Definition create_completion (create : service) : M (list (option pystr)) :=
  λ w, let sent := messages w in
       (World (messages w) (calls w ++ [sent]),
        match create sent with
        | Raises e => inl e
        | Completion choices => inr choices
        end).

(** [l[i]] for a non-negative index *)
Definition item {A} (l : list A) (i : nat) : exn + A :=
  match l !! i with
  | Some x => inr x
  | None => inl index_out_of_range
  end.

(** [l[-n:]] *)
Definition last_items {A} (n : nat) (l : list A) : list A :=
  drop (length l - n) l.

(** [data.get(key)] *)
Definition get (data : pyval) (key : pystr) : exn + pyval :=
  match data with
  | PyDict d => inr (default PyNone (d !! key))
  | _ => inl (no_attribute (type_name data) (lit "get"))
  end.

(** Lines 159-165: [user_input.startswith('http')] and the choice of the
    content.  Only [str] has the method among the values JSON can give. *)
Definition classify (user_input : pyval) : exn + content :=
  match user_input with
  | PyStr s =>
      if startswith s (lit "http")
      then inr (Parts [text_part image_prompt; image_url_part s])
      else inr (Text s)
  | _ => inl (no_attribute (type_name user_input) (lit "startswith"))
  end.

(** Lines 171-172. *)
Definition trim : M unit :=
  messages ← get_messages;
  if bool_decide (6 < length messages) then
    m0 ← lift (item messages 0);
    set_messages ([m0] ++ last_items 5 messages)
  else mret ().

(** [response.choices[0].message.content.strip()] (line 183) *)
Definition reply_text (choices : list (option pystr)) : exn + pystr :=
  match item choices 0 with
  | inl e => inl e
  | inr None => inl (no_attribute (lit "NoneType") (lit "strip"))
  | inr (Some s) => inr (strip s)
  end.

(** The route handler, lines 150-189; [data] is [request.json]. *)
Definition chat (create : service) (data : pyval) : M response :=
  user_input ← lift (get data (lit "message"));
  if negb (truthy user_input) then
    mret (Response (error_body (lit "No message provided")) 400)
  else
    content ← lift (classify user_input);
    append_message (Turn user content);;
    trim;;
    try_except
      (choices ← create_completion create;
       bot_reply ← lift (reply_text choices);
       append_message (Turn assistant (Text bot_reply));;
       mret (Response (reply_body bot_reply) 200))
      (λ e, mret (Response (error_body (str e)) 500)).

(** The handler up to and including the trim step (lines 152-172).  It
    yields the early response when the handler returns at line 156 and
    [None] when control reaches the [try] block. *)
Definition receive (data : pyval) : M (option response) :=
  user_input ← lift (get data (lit "message"));
  if negb (truthy user_input) then
    mret (Some (Response (error_body (lit "No message provided")) 400))
  else
    content ← lift (classify user_input);
    append_message (Turn user content);;
    trim;;
    mret None.

(** The [try] statement (lines 174-189). *)
Definition complete (create : service) : M response :=
  try_except
    (choices ← create_completion create;
     bot_reply ← lift (reply_text choices);
     append_message (Turn assistant (Text bot_reply));;
     mret (Response (reply_body bot_reply) 200))
    (λ e, mret (Response (error_body (str e)) 500)).

(** The process serving a sequence of requests, each paired with the way
    the service behaves while it is handled. *)
Definition handle (w : world) (rq : service * pyval) : world :=
  (chat rq.1 rq.2 w).1.

Definition serve (reqs : list (service * pyval)) : world := foldl handle boot reqs.

(** ** Small runs *)

Definition body_with (v : pyval) : pyval := PyDict {[ lit "message" := v ]}.

Definition echo : service := λ _, Completion [Some (lit "  hello  ")].

(** ** Vocabulary of the specification *)

(** The transcript the trim step leaves behind, as a function of the one it
    finds: turn 0 followed by the last five turns once there are more than
    six, otherwise the transcript itself. *)
Definition window (l : list turn) : list turn :=
  if bool_decide (6 < length l) then take 1 l ++ drop (length l - 5) l else l.

(** The content built for a [str] input. *)
Definition content_for (s : pystr) : content :=
  if startswith s (lit "http")
  then Parts [text_part image_prompt; image_url_part s]
  else Text s.

(** What the [try] block computes from the behaviour of the service. *)
Definition attempt (o : outcome) : exn + pystr :=
  match o with
  | Raises e => inl e
  | Completion choices => reply_text choices
  end.

(** Handling [data] in world [w] made exactly one call to the service, and
    the last turn of the transcript it sent is a user turn of content [c]. *)
Definition sends (create : service) (data : pyval) (w : world) (c : content) : Prop :=
  ∃ sent, calls (chat create data w).1 = calls w ++ [sent]
          ∧ last sent = Some (Turn user c).

(** [t] is [r] without its leading and trailing whitespace. *)
Definition trimmed_of (r t : pystr) : Prop :=
  (∃ pre post, r = pre ++ t ++ post
               ∧ Forall (λ c, isspace c = true) pre
               ∧ Forall (λ c, isspace c = true) post)
  ∧ (∀ c, head t = Some c → isspace c = false)
  ∧ (∀ c, last t = Some c → isspace c = false).

Definition is_text (p : part) : bool :=
  match p with text_part _ => true | image_url_part _ => false end.

Definition is_image (p : part) : bool :=
  match p with text_part _ => false | image_url_part _ => true end.

Definition count_text (ps : list part) : nat := length (List.filter is_text ps).

Definition count_image (ps : list part) : nat := length (List.filter is_image ps).

(** What every reachable world satisfies. *)
Record anchored (w : world) : Prop := Anchored {
  anchored_head : messages w !! 0 = Some system_turn;
  anchored_length : length (messages w) ≤ 7;
  anchored_calls :
    Forall (λ sent, length sent ≤ 6 ∧ sent !! 0 = Some system_turn) (calls w)
}.

Definition missing_input : response :=
  Response (error_body (lit "No message provided")) 400.

(** A transcript of seven turns used in the examples. *)
Definition say (r : role) (s : String.string) : turn := Turn r (Text (lit s)).

Definition seven : list turn :=
  [system_turn; say user "q1"; say assistant "a1"; say user "q2";
   say assistant "a2"; say user "q3"; say assistant "a3"].

(** Three answered questions: the transcript then holds seven turns. *)
Definition three_rounds : list (service * pyval) :=
  replicate 3 (echo, body_with (PyStr (lit "hi"))).

(** A service that cannot be reached. *)
Definition down : service := λ _, Raises (Exn ClientError (lit "Connection error.")).

(** ** Vocabulary for the whole-handler properties *)

(** The requests that get past lines 153-165: a JSON object whose
    [message] is a non-empty [str]. *)
Definition accepted (data : pyval) : bool :=
  match data with
  | PyDict d =>
      match d !! lit "message" with
      | Some (PyStr (_ :: _)) => true
      | _ => false
      end
  | _ => false
  end.

(** The turns the handler appends: a user turn built from a non-empty
    input, or an assistant turn holding a stripped reply. *)
Inductive appended : turn → Prop :=
  | appended_user s :
      s ≠ [] → appended (Turn user (content_for s))
  | appended_assistant r :
      (∀ c, head r = Some c → isspace c = false) →
      (∀ c, last r = Some c → isspace c = false) →
      appended (Turn assistant (Text r)).

Definition is_assistant (t : turn) : bool :=
  match turn_role t with assistant => true | _ => false end.

Definition is_user (t : turn) : bool :=
  match turn_role t with user => true | _ => false end.

(** No assistant turn directly follows another one. *)
Fixpoint no_double_assistant (l : list turn) : bool :=
  match l with
  | a :: (b :: _) as l' =>
      negb (is_assistant a && is_assistant b) && no_double_assistant l'
  | _ => true
  end.

(** A question the service fails on, followed by one it answers. *)
Definition unanswered_then_asked : list (service * pyval) :=
  [(down, body_with (PyStr (lit "q1"))); (echo, body_with (PyStr (lit "q2")))].

(** A service whose first candidate is blank. *)
Definition blank : service := λ _, Completion [Some (lit "   "); Some (lit "x")].

(** * Properties *)

(** ** Runs on concrete inputs *)

Example chat_first :
  chat echo (body_with (PyStr (lit "hi"))) boot
  = (World [system_turn; Turn user (Text (lit "hi")); Turn assistant (Text (lit "hello"))]
           [[system_turn; Turn user (Text (lit "hi"))]],
     inr (Response (reply_body (lit "hello")) 200)).
Proof. vm_compute. reflexivity. Qed.

Example chat_image :
  calls (chat echo (body_with (PyStr (lit "https://example.com/cat.png"))) boot).1
  = [[system_turn;
      Turn user (Parts [text_part image_prompt;
                        image_url_part (lit "https://example.com/cat.png")])]].
Proof. vm_compute. reflexivity. Qed.

Example chat_number :
  chat echo (body_with (PyInt 7)) boot
  = (boot, inl (no_attribute (lit "int") (lit "startswith"))).
Proof. vm_compute. reflexivity. Qed.

Example chat_no_object :
  chat echo (PyList []) boot = (boot, inl (no_attribute (lit "list") (lit "get"))).
Proof. vm_compute. reflexivity. Qed.

Example strip_unicode :
  strip ([160; 9] ++ lit "a b" ++ [12288; 10])%N = lit "a b".
Proof. reflexivity. Qed.

(** ** Strings *)

Lemma startswith_prefix s p : startswith s p = true ↔ p `prefix_of` s.
Proof.
  revert s. induction p as [|c p IH]; intros [|d s]; simpl.
  - split; [intros _; apply prefix_nil | done].
  - split; [intros _; apply prefix_nil | done].
  - split; [done | intros H; by apply prefix_nil_not in H].
  - rewrite andb_true_iff, N.eqb_eq, IH. split.
    + intros [-> H]. by apply prefix_cons.
    + intros H. split; [symmetry; by eapply prefix_cons_inv_1 | by eapply prefix_cons_inv_2].
Qed.

Lemma lstrip_spec s :
  ∃ pre, s = pre ++ lstrip s ∧ Forall (λ c, isspace c = true) pre
         ∧ ∀ c, head (lstrip s) = Some c → isspace c = false.
Proof.
  induction s as [|c s (pre & Hs & Hpre & Hhd)]; simpl.
  - exists []. split_and!; [done | constructor | done].
  - destruct (isspace c) eqn:Hc.
    + exists (c :: pre). split_and!; [by rewrite Hs at 1 | by constructor | done].
    + exists []. split_and!; [done | constructor |]. simpl. by intros ? [= <-].
Qed.

Lemma strip_spec r : trimmed_of r (strip r).
Proof.
  unfold strip, rstrip.
  destruct (lstrip_spec r) as (pre & Hr & Hpre & Hhd).
  destruct (lstrip_spec (reverse (lstrip r))) as (post & Hrev & Hpost & Hlast).
  set (t := lstrip (reverse (lstrip r))) in *.
  assert (Hl : lstrip r = reverse t ++ reverse post).
  { rewrite <-reverse_app, <-Hrev. by rewrite reverse_involutive. }
  split_and!.
  - exists pre, (reverse post). split_and!.
    + by rewrite <-Hl.
    + done.
    + by apply Forall_reverse.
  - intros c Hc. apply Hhd. rewrite Hl.
    destruct (reverse t); [done | done].
  - intros c Hc. apply Hlast. by rewrite <-last_reverse.
Qed.

(** ** The window kept by the trim step *)

Lemma window_short l : length l ≤ 6 → window l = l.
Proof. intros H. unfold window. rewrite bool_decide_eq_false_2; [done | lia]. Qed.

Lemma window_long l :
  6 < length l → window l = take 1 l ++ drop (length l - 5) l.
Proof. intros H. unfold window. by rewrite bool_decide_eq_true_2. Qed.

Lemma length_window l :
  length (window l) = if bool_decide (6 < length l) then 6 else length l.
Proof.
  unfold window. case_bool_decide; [|done].
  rewrite length_app, length_take, length_drop. lia.
Qed.

Lemma length_window_le l : length (window l) ≤ 6.
Proof. rewrite length_window. case_bool_decide; lia. Qed.

Lemma window_head l : window l !! 0 = l !! 0.
Proof.
  unfold window. case_bool_decide; [|done].
  destruct l as [|m0 l]; [simpl in *; lia | done].
Qed.

Lemma window_last l : last (window l) = last l.
Proof.
  unfold window. case_bool_decide as H; [|done].
  assert (drop (length l - 5) l ≠ []) as Hne.
  { intros E. apply (f_equal length) in E. rewrite length_drop in E. simpl in E. lia. }
  transitivity (last (take (length l - 5) l ++ drop (length l - 5) l));
    [|by rewrite take_drop].
  destruct (drop (length l - 5) l) as [|x k]; [done|].
  by rewrite !last_app_cons.
Qed.

(** Appending one turn and trimming, seen from the transcript before the
    append: nothing is lost up to five turns; from six turns on, turn 0 and
    the last four turns survive in front of the new one. *)
Lemma window_snoc l t :
  window (l ++ [t])
  = if bool_decide (length l < 6) then l ++ [t]
    else take 1 l ++ drop (length l - 4) l ++ [t].
Proof.
  unfold window. rewrite length_app. simpl.
  case_bool_decide; case_bool_decide; try lia; [|done].
  rewrite take_app_le by lia.
  rewrite drop_app_le by lia.
  by replace (length l + 1 - 5) with (length l - 4) by lia.
Qed.

(** ** The handler, path by path *)

Lemma trim_run w : trim w = (World (window (messages w)) (calls w), inr ()).
Proof.
  destruct w as [l cs]. unfold trim, window, mbind, M_bind, bind, get_messages; simpl.
  case_bool_decide as H.
  - destruct l as [|m0 l]; [simpl in H; lia|]. simpl.
    unfold set_messages, last_items. done.
  - done.
Qed.

Lemma chat_not_object create data w :
  (∀ d, data ≠ PyDict d) →
  chat create data w = (w, inl (no_attribute (type_name data) (lit "get"))).
Proof. intros H. destruct data; try done. by destruct (H d). Qed.

Lemma chat_falsy create d w :
  truthy (default PyNone (d !! lit "message")) = false →
  chat create (PyDict d) w = (w, inr missing_input).
Proof.
  intros H. unfold chat, mbind, M_bind, bind. simpl. by rewrite H.
Qed.

Lemma chat_not_str create d w v :
  d !! lit "message" = Some v → truthy v = true → (∀ s, v ≠ PyStr s) →
  chat create (PyDict d) w
  = (w, inl (no_attribute (type_name v) (lit "startswith"))).
Proof.
  intros Hd Hv Hs. unfold chat, mbind, M_bind, bind. simpl. rewrite Hd. simpl.
  rewrite Hv. simpl. destruct v; try done. by destruct (Hs s).
Qed.

Lemma chat_str create d w s :
  d !! lit "message" = Some (PyStr s) → s ≠ [] →
  chat create (PyDict d) w
  = let sent := window (messages w ++ [Turn user (content_for s)]) in
    match attempt (create sent) with
    | inr r => (World (sent ++ [Turn assistant (Text r)]) (calls w ++ [sent]),
                inr (Response (reply_body r) 200))
    | inl e => (World sent (calls w ++ [sent]),
                inr (Response (error_body (str e)) 500))
    end.
Proof.
  intros Hd Hs. unfold chat, mbind, M_bind, bind. simpl. rewrite Hd. simpl.
  rewrite bool_decide_eq_false_2 by done. simpl.
  unfold content_for.
  destruct (startswith s (lit "http")); simpl; rewrite trim_run; simpl;
    unfold try_except, create_completion, attempt; simpl;
    (destruct (create _) as [e|choices]; [done|]);
    simpl; by destruct (reply_text choices).
Qed.

Lemma chat_split create data w :
  chat create data w
  = match receive data w with
    | (w1, inr None) => complete create w1
    | (w1, inr (Some resp)) => (w1, inr resp)
    | (w1, inl e) => (w1, inl e)
    end.
Proof.
  unfold chat, receive, complete, mbind, M_bind, bind.
  destruct (lift (get data (lit "message")) w) as [w0 [e|v]]; [done|].
  destruct (negb (truthy v)); [done|].
  destruct (lift (classify v) w0) as [w2 [e|c]]; [done|].
  destruct (append_message (Turn user c) w2) as [w3 [e|[]]]; [done|].
  by destruct (trim w3) as [w4 [e|[]]].
Qed.

(** Control reaches the [try] block exactly for a non-empty [str]. *)
Lemma receive_None data w w1 :
  receive data w = (w1, inr None)
  ↔ ∃ d s, data = PyDict d ∧ d !! lit "message" = Some (PyStr s) ∧ s ≠ []
           ∧ w1 = World (window (messages w ++ [Turn user (content_for s)])) (calls w).
Proof.
  split.
  - unfold receive, mbind, M_bind, bind.
    destruct data as [| | | | |l|d]; try done. simpl.
    destruct (d !! lit "message") as [v|] eqn:Hd; [|done]. simpl.
    destruct v as [|b|z|f|s|l|d']; simpl; try done.
    + by destruct b.
    + by destruct (z =? 0)%Z.
    + by destruct f.
    + case_bool_decide as Hs; [done|]. simpl.
      intros H. exists d, s. split_and!; [done..|].
      revert H. unfold content_for.
      destruct (startswith s (lit "http")); simpl; rewrite trim_run; simpl;
        unfold mret, M_ret, ret; congruence.
    + by destruct l.
    + by case_bool_decide.
  - intros (d & s & -> & Hd & Hs & ->).
    unfold receive, mbind, M_bind, bind. simpl. rewrite Hd. simpl.
    rewrite bool_decide_eq_false_2 by done. simpl. unfold content_for.
    by destruct (startswith s (lit "http")); simpl; rewrite trim_run.
Qed.

(** Otherwise the handler leaves the world as it found it. *)
Lemma receive_other data w w1 r :
  receive data w = (w1, r) → r ≠ inr None → w1 = w.
Proof.
  unfold receive, mbind, M_bind, bind, mret, M_ret, ret.
  destruct data as [| | | | |l|d]; simpl; try congruence.
  destruct (default PyNone (d !! lit "message")) as [|b|z|f|s|l|d'];
    simpl; try congruence.
  - destruct b; simpl; congruence.
  - destruct (z =? 0)%Z; simpl; congruence.
  - destruct f; simpl; congruence.
  - case_bool_decide; simpl; [congruence|].
    destruct (startswith s (lit "http")); simpl; rewrite trim_run; simpl;
      congruence.
  - destruct l; simpl; congruence.
  - case_bool_decide; simpl; congruence.
Qed.

Lemma complete_run create w1 :
  complete create w1
  = match attempt (create (messages w1)) with
    | inr r => (World (messages w1 ++ [Turn assistant (Text r)])
                      (calls w1 ++ [messages w1]),
                inr (Response (reply_body r) 200))
    | inl e => (World (messages w1) (calls w1 ++ [messages w1]),
                inr (Response (error_body (str e)) 500))
    end.
Proof.
  unfold complete, try_except, create_completion, attempt, mbind, M_bind, bind.
  destruct (create (messages w1)) as [e|choices]; [done|].
  by destruct (reply_text choices).
Qed.

(** ** Reachable worlds *)

Lemma anchored_boot : anchored boot.
Proof. split; simpl; [done | lia | constructor]. Qed.

Lemma anchored_receive data w w1 :
  anchored w → receive data w = (w1, inr None) →
  messages w1 !! 0 = Some system_turn ∧ 2 ≤ length (messages w1) ≤ 6.
Proof.
  intros [Hh Hl Hc] (d & s & -> & Hd & Hs & ->)%receive_None. simpl.
  rewrite window_head, length_window, length_app. simpl.
  split.
  - rewrite lookup_app_l; [done|]. by apply lookup_lt_Some in Hh.
  - apply lookup_lt_Some in Hh. case_bool_decide; lia.
Qed.

Lemma anchored_chat create data w : anchored w → anchored (chat create data w).1.
Proof.
  intros Hw. rewrite chat_split.
  destruct (receive data w) as [w1 r] eqn:Hr.
  destruct r as [e|[resp|]].
  - by rewrite (receive_other _ _ _ _ Hr).
  - by rewrite (receive_other _ _ _ _ Hr).
  - destruct (anchored_receive _ _ _ Hw Hr) as [Hh Hl].
    assert (calls w1 = calls w) as Hc.
    { apply receive_None in Hr as (d & s & _ & _ & _ & ->). done. }
    rewrite complete_run. destruct Hw as [_ _ Hcalls].
    destruct (attempt _) as [e|r]; simpl; split; simpl.
    + done.
    + lia.
    + rewrite Hc. apply Forall_app. split; [done|].
      apply Forall_singleton. split; [lia | done].
    + rewrite lookup_app_l; [done | lia].
    + rewrite length_app. simpl. lia.
    + rewrite Hc. apply Forall_app. split; [done|].
      apply Forall_singleton. split; [lia | done].
Qed.

Lemma anchored_serve reqs : anchored (serve reqs).
Proof.
  unfold serve. induction reqs as [|rq reqs IH] using rev_ind.
  - apply anchored_boot.
  - rewrite foldl_snoc. by apply anchored_chat.
Qed.

(** * The claims *)

(** C1.  A request whose [message] field is absent or is the empty string
    is answered with the MissingInput error, status 400 and an error body;
    the handler returns before touching the transcript and before calling
    the service, so the world, and with it the transcript length, is the
    one it found. *)
Theorem missing_input_rejected create d w :
  d !! lit "message" = None ∨ d !! lit "message" = Some (PyStr []) →
  chat create (PyDict d) w
  = (w, inr (Response (error_body (lit "No message provided")) 400))
  ∧ receive (PyDict d) w = (w, inr (Some missing_input))
  ∧ length (messages (chat create (PyDict d) w).1) = length (messages w)
  ∧ calls (chat create (PyDict d) w).1 = calls w.
Proof.
  intros H.
  assert (truthy (default PyNone (d !! lit "message")) = false) as Hv
    by (by destruct H as [-> | ->]).
  rewrite (chat_falsy _ _ _ Hv). split_and!; try done.
  unfold receive, mbind, M_bind, bind. simpl. by rewrite Hv.
Qed.

Lemma missing_input_rejected_witness :
  (∅ : gmap pystr pyval) !! lit "message" = None
  ∧ chat echo (PyDict ∅) boot
    = (boot, inr (Response (error_body (lit "No message provided")) 400)).
Proof.
  split; [reflexivity|].
  apply (missing_input_rejected echo ∅ boot). left. reflexivity.
Defined.

(** C2, as stated, fails at the empty string: it does not start with
    "http", and the handler answers 400 without sending anything. *)
Lemma classification_empty_input :
  startswith [] (lit "http") = false
  ∧ ¬ sends echo (body_with (PyStr [])) boot (Text []).
Proof.
  split; [reflexivity|].
  intros (sent & H & _). vm_compute in H. discriminate H.
Qed.

(** C2, amended.  For every non-empty input string the handler makes one
    call, and the user turn that closes the transcript it sends carries:
    two parts, one text part (the fixed instruction) and one image part
    whose URL is the input itself, when the input starts with "http"; the
    input itself as plain text otherwise. *)
Theorem classification create d w s :
  d !! lit "message" = Some (PyStr s) → s ≠ [] →
  (lit "http" `prefix_of` s →
     ∃ ps, sends create (PyDict d) w (Parts ps)
           ∧ ps = [text_part image_prompt; image_url_part s]
           ∧ length ps = 2 ∧ count_text ps = 1 ∧ count_image ps = 1)
  ∧ (¬ lit "http" `prefix_of` s → sends create (PyDict d) w (Text s)).
Proof.
  intros Hd Hs.
  assert (sends create (PyDict d) w (content_for s)) as Hsend.
  { unfold sends. rewrite (chat_str _ _ _ _ Hd Hs). cbv zeta.
    eexists. split.
    - by destruct (attempt _).
    - by rewrite window_last, last_snoc. }
  unfold content_for in Hsend. split.
  - intros Hp%startswith_prefix. rewrite Hp in Hsend. by eexists.
  - intros Hp. destruct (startswith s (lit "http")) eqn:E; [|done].
    by apply startswith_prefix in E.
Qed.

Lemma classification_witness :
  sends echo (body_with (PyStr (lit "hi"))) boot (Text (lit "hi")).
Proof.
  refine (proj2 (classification echo {[ lit "message" := PyStr (lit "hi") ]}
                   boot (lit "hi") _ _) _).
  - reflexivity.
  - discriminate.
  - intros H%startswith_prefix. vm_compute in H. discriminate H.
Defined.

(** C3, as stated, fails: seven turns are trimmed to six, not to two. *)
Lemma trim_seven_not_two :
  6 < length seven ∧ length (messages (trim (World seven [])).1) ≠ 2.
Proof. split; [vm_compute; lia | vm_compute; discriminate]. Qed.

(** C3, amended.  Whenever the transcript holds more than six turns, the
    trim step replaces it by exactly six turns: turn 0 followed by the last
    five turns. *)
Theorem trim_collapses w :
  6 < length (messages w) →
  ∃ m0, messages w !! 0 = Some m0
        ∧ trim w = (World (m0 :: last_items 5 (messages w)) (calls w), inr ())
        ∧ length (last_items 5 (messages w)) = 5
        ∧ length (m0 :: last_items 5 (messages w)) = 6.
Proof.
  intros H. destruct w as [[|m0 l] cs]; [simpl in H; lia|].
  exists m0. simpl in *. rewrite trim_run, window_long by (simpl; lia).
  unfold last_items. rewrite length_drop. simpl. split_and!; [done | done | lia | lia].
Qed.

Lemma trim_collapses_witness :
  6 < length seven
  ∧ ∃ m0, seven !! 0 = Some m0
          ∧ trim (World seven []) = (World (m0 :: last_items 5 seven) [], inr ())
          ∧ length (last_items 5 seven) = 5
          ∧ length (m0 :: last_items 5 seven) = 6.
Proof.
  assert (6 < length seven) as H by (vm_compute; lia).
  split; [exact H|]. exact (trim_collapses (World seven []) H).
Defined.

(** C4.  Trimming the seven turns S, t1, ..., t6 leaves exactly
    S, t2, ..., t6. *)
Theorem trim_seven_turns (S t1 t2 t3 t4 t5 t6 : turn) cs :
  trim (World [S; t1; t2; t3; t4; t5; t6] cs)
  = (World [S; t2; t3; t4; t5; t6] cs, inr ()).
Proof. reflexivity. Qed.

(** C5.  Whatever requests the process has served since it started with
    the single system turn (answered ones in particular), turn 0 of the
    transcript is still the system turn it started with; every transcript
    that went out, taken right after the trim step of its invocation, had at
    most six turns and that same turn 0; and when the next invocation gets
    past its trim step, the transcript then has at most six turns and that
    same turn 0. *)
Theorem window_invariant reqs :
  turn_role system_turn = system
  ∧ messages (serve reqs) !! 0 = Some system_turn
  ∧ Forall (λ sent, length sent ≤ 6 ∧ sent !! 0 = Some system_turn)
           (calls (serve reqs))
  ∧ ∀ data w1, receive data (serve reqs) = (w1, inr None) →
               length (messages w1) ≤ 6 ∧ messages w1 !! 0 = Some system_turn.
Proof.
  pose proof (anchored_serve reqs) as Hw. split_and!; [done | apply Hw.. |].
  intros data w1 Hr. destruct (anchored_receive _ _ _ Hw Hr). split; [lia | done].
Qed.

Lemma window_invariant_witness :
  receive (body_with (PyStr (lit "hi"))) (serve three_rounds)
  = (World (system_turn :: last_items 5 (messages (serve three_rounds)
                                          ++ [say user "hi"]))
           (calls (serve three_rounds)), inr None)
  ∧ length (system_turn :: last_items 5 (messages (serve three_rounds)
                                          ++ [say user "hi"])) ≤ 6.
Proof.
  assert (receive (body_with (PyStr (lit "hi"))) (serve three_rounds)
          = (World (system_turn :: last_items 5 (messages (serve three_rounds)
                                                  ++ [say user "hi"]))
                   (calls (serve three_rounds)), inr None)) as H
    by (vm_compute; reflexivity).
  split; [exact H|].
  exact (proj1 (proj2 (proj2 (proj2 (window_invariant three_rounds))) _ _ H)).
Defined.

(** C6.  When control reaches the call and the service returns a first
    candidate with text [r], the handler appends the assistant turn whose
    content is [r] without its leading and trailing whitespace, to the
    transcript it sent, and answers 200 with that same text as the reply;
    the service was called once.  "  hello  " comes back as "hello". *)
Theorem success_path create data w w1 r rest :
  receive data w = (w1, inr None) →
  create (messages w1) = Completion (Some r :: rest) →
  chat create data w
  = (World (messages w1 ++ [Turn assistant (Text (strip r))])
           (calls w ++ [messages w1]),
     inr (Response (reply_body (strip r)) 200))
  ∧ trimmed_of r (strip r)
  ∧ strip (lit "  hello  ") = lit "hello".
Proof.
  intros Hr Hc. rewrite chat_split, Hr, complete_run, Hc. simpl.
  apply receive_None in Hr as (d & s & _ & _ & _ & ->). simpl.
  split_and!; [done | apply strip_spec | reflexivity].
Qed.

Lemma success_path_witness :
  chat echo (body_with (PyStr (lit "hi"))) boot
  = (World ([system_turn; say user "hi"] ++ [Turn assistant (Text (strip (lit "  hello  ")))])
           ([] ++ [[system_turn; say user "hi"]]),
     inr (Response (reply_body (strip (lit "  hello  "))) 200)).
Proof.
  refine (proj1 (success_path echo (body_with (PyStr (lit "hi"))) boot
                   (World [system_turn; say user "hi"] []) (lit "  hello  ") [] _ _)).
  - vm_compute. reflexivity.
  - reflexivity.
Defined.

(** C7.  When control reaches the call and the call fails (the client
    raises, the response has no candidate, or the first candidate has no
    text), the handler answers 500 with the description of the failure as
    error body; the service was called once; and the transcript is the one
    that was sent: its last element is the user turn of this request and no
    assistant turn follows. *)
Theorem failure_path create data w w1 e :
  receive data w = (w1, inr None) →
  attempt (create (messages w1)) = inl e →
  chat create data w
  = (World (messages w1) (calls w ++ [messages w1]),
     inr (Response (error_body (str e)) 500))
  ∧ ∃ v c, get data (lit "message") = inr v ∧ classify v = inr c
           ∧ last (messages (chat create data w).1) = Some (Turn user c).
Proof.
  intros Hr Ha. rewrite chat_split, Hr, complete_run, Ha.
  apply receive_None in Hr as (d & s & -> & Hd & Hs & ->). simpl.
  split; [done|]. exists (PyStr s), (content_for s). rewrite Hd. split_and!.
  - done.
  - unfold content_for. simpl. by destruct (startswith s (lit "http")).
  - by rewrite window_last, last_snoc.
Qed.

Lemma failure_path_witness :
  chat down (body_with (PyStr (lit "hi"))) boot
  = (World [system_turn; say user "hi"] ([] ++ [[system_turn; say user "hi"]]),
     inr (Response (error_body (lit "Connection error.")) 500)).
Proof.
  refine (proj1 (failure_path down (body_with (PyStr (lit "hi"))) boot
                   (World [system_turn; say user "hi"] [])
                   (Exn ClientError (lit "Connection error.")) _ _)).
  - vm_compute. reflexivity.
  - reflexivity.
Defined.

(** C8.  The handler answers with the MissingInput error exactly when the
    value of the [message] field is falsy, which it is for an absent field,
    null, the empty string, the numbers 0, 0.0 and -0.0, false, and the
    empty list and object; the world is then unchanged.  For a truthy value
    that is not a string the handler raises at [startswith], outside the
    [try] block, and the world is unchanged as well. *)
Theorem missing_input_iff create d w :
  let v := default PyNone (d !! lit "message") in
  ((chat create (PyDict d) w).2 = inr missing_input ↔ truthy v = false)
  ∧ (truthy v = false ↔
       v = PyNone ∨ v = PyStr [] ∨ v = PyInt 0 ∨ (∃ sign, v = PyFloat (S754_zero sign))
       ∨ v = PyBool false ∨ v = PyList [] ∨ v = PyDict ∅)
  ∧ (d !! lit "message" = None → v = PyNone)
  ∧ (truthy v = false → (chat create (PyDict d) w).1 = w)
  ∧ (truthy v = true → (∀ s, v ≠ PyStr s) →
       chat create (PyDict d) w
       = (w, inl (no_attribute (type_name v) (lit "startswith")))).
Proof.
  intros v. split_and!.
  - split; [|intros H; by rewrite chat_falsy].
    intros H. destruct (truthy v) eqn:Hv; [exfalso|done].
    destruct (d !! lit "message") as [u|] eqn:Hd; [|done].
    subst v. simpl in Hv.
    assert ((∃ s, u = PyStr s) ∨ ∀ s, u ≠ PyStr s) as [[s ->]|Hn]
      by (destruct u; try (right; intros ?; discriminate); left; eauto).
    + assert (s ≠ []) as Hs by (intros ->; done).
      rewrite (chat_str _ _ _ _ Hd Hs) in H. cbv zeta in H.
      by destruct (attempt _).
    + by rewrite (chat_not_str _ _ _ _ Hd Hv Hn) in H.
  - split.
    + destruct v as [|b|z|f|s|l|d']; simpl; intros H.
      * by left.
      * destruct b; [done|]. naive_solver.
      * apply negb_false_iff, Z.eqb_eq in H. naive_solver.
      * destruct f; try done. naive_solver.
      * case_bool_decide; [|done]. naive_solver.
      * destruct l; [|done]. naive_solver.
      * case_bool_decide; [|done]. naive_solver.
    + intros [->|[->|[->|[[sign ->]|[->|[->| ->]]]]]]; done.
  - intros H. subst v. by rewrite H.
  - intros H. by rewrite chat_falsy.
  - intros Hv Hs. subst v. destruct (d !! lit "message") as [u|] eqn:Hd; [|done].
    by apply chat_not_str.
Qed.

Lemma missing_input_iff_witness :
  chat echo (body_with (PyInt 7)) boot
  = (boot, inl (no_attribute (lit "int") (lit "startswith")))
  ∧ (chat echo (body_with (PyInt 0)) boot).1 = boot.
Proof.
  split.
  - refine (proj2 (proj2 (proj2 (proj2
      (missing_input_iff echo {[ lit "message" := PyInt 7 ]} boot)))) _ _).
    + reflexivity.
    + discriminate.
  - refine (proj1 (proj2 (proj2 (proj2
      (missing_input_iff echo {[ lit "message" := PyInt 0 ]} boot)))) _).
    reflexivity.
Defined.

(** An invocation that does not reach the [try] block calls nothing. *)
Lemma no_call_otherwise create data w w1 r :
  receive data w = (w1, r) → r ≠ inr None → (chat create data w).1 = w.
Proof.
  intros Hr Hn. rewrite chat_split, Hr.
  rewrite (receive_other _ _ _ _ Hr Hn). by destruct r as [e|[resp|]].
Qed.

(** C9.  In every invocation of a running process that reaches the call,
    the transcript handed to the service (the global list at that moment)
    has at least two and at most six turns, and its last element is the
    user turn this invocation appended. *)
Theorem at_call reqs create data w1 :
  receive data (serve reqs) = (w1, inr None) →
  2 ≤ length (messages w1) ≤ 6
  ∧ calls (chat create data (serve reqs)).1 = calls (serve reqs) ++ [messages w1]
  ∧ ∃ v c, get data (lit "message") = inr v ∧ classify v = inr c
           ∧ (append_message (Turn user c);; trim) (serve reqs) = (w1, inr ())
           ∧ last (messages w1) = Some (Turn user c).
Proof.
  intros Hr. destruct (anchored_receive _ _ _ (anchored_serve reqs) Hr) as [_ Hl].
  split; [done|]. split.
  - rewrite chat_split, Hr, complete_run.
    apply receive_None in Hr as (d & s & _ & _ & _ & ->).
    by destruct (attempt _).
  - apply receive_None in Hr as (d & s & -> & Hd & Hs & ->).
    exists (PyStr s), (content_for s). simpl. rewrite Hd. split_and!.
    + done.
    + unfold content_for. by destruct (startswith s (lit "http")).
    + unfold mbind, M_bind, bind. simpl. by rewrite trim_run.
    + by rewrite window_last, last_snoc.
Qed.

Lemma at_call_witness :
  2 ≤ length (system_turn :: last_items 5 (messages (serve three_rounds)
                                            ++ [say user "hi"])) ≤ 6.
Proof.
  refine (proj1 (at_call three_rounds echo (body_with (PyStr (lit "hi")))
                   (World (system_turn :: last_items 5 (messages (serve three_rounds)
                                                         ++ [say user "hi"]))
                          (calls (serve three_rounds))) _)).
  vm_compute. reflexivity.
Defined.

(** C10.  When control reaches the call and the call fails, the transcript
    left behind is the one found with the user turn appended if it held at
    most five turns; otherwise it is turn 0, the last four turns found and
    the user turn, the turns in between being dropped.  Nothing else
    changes.  After three answered requests the transcript holds seven
    turns, and a failed fourth request leaves six. *)
Theorem failure_frame create data w w1 e :
  receive data w = (w1, inr None) →
  attempt (create (messages w1)) = inl e →
  (∃ v c, get data (lit "message") = inr v ∧ classify v = inr c
          ∧ messages (chat create data w).1
            = if bool_decide (length (messages w) < 6)
              then messages w ++ [Turn user c]
              else take 1 (messages w)
                   ++ drop (length (messages w) - 4) (messages w)
                   ++ [Turn user c])
  ∧ (∃ reqs, length (messages (chat down (body_with (PyStr (lit "q"))) (serve reqs)).1)
             < length (messages (serve reqs))).
Proof.
  intros Hr Ha. split.
  - rewrite chat_split, Hr, complete_run, Ha.
    apply receive_None in Hr as (d & s & -> & Hd & Hs & ->).
    exists (PyStr s), (content_for s). simpl. rewrite Hd. split_and!.
    + done.
    + unfold content_for. by destruct (startswith s (lit "http")).
    + apply window_snoc.
  - exists three_rounds. vm_compute. lia.
Qed.

Lemma failure_frame_witness :
  ∃ v c, get (body_with (PyStr (lit "q"))) (lit "message") = inr v
         ∧ classify v = inr c
         ∧ messages (chat down (body_with (PyStr (lit "q"))) (serve three_rounds)).1
           = if bool_decide (length (messages (serve three_rounds)) < 6)
             then messages (serve three_rounds) ++ [Turn user c]
             else take 1 (messages (serve three_rounds))
                  ++ drop (length (messages (serve three_rounds)) - 4)
                          (messages (serve three_rounds))
                  ++ [Turn user c].
Proof.
  refine (proj1 (failure_frame down (body_with (PyStr (lit "q"))) (serve three_rounds)
                   (World [system_turn; say user "hi"; say assistant "hello";
                           say user "hi"; say assistant "hello"; say user "q"]
                          (calls (serve three_rounds)))
                   (Exn ClientError (lit "Connection error.")) _ _)).
  - vm_compute. reflexivity.
  - reflexivity.
Defined.

(** * Further properties of the handler *)

(** ** Every way through the handler *)

Lemma accepted_spec data :
  accepted data = true
  ↔ ∃ d s, data = PyDict d ∧ d !! lit "message" = Some (PyStr s) ∧ s ≠ [].
Proof.
  split.
  - destruct data as [| | | | |l|d]; simpl; try done.
    destruct (d !! lit "message") as [[| | | |[|c s]| |]|] eqn:Hd; try done.
    intros _. by exists d, (c :: s).
  - intros (d & [|c s] & -> & Hd & Hs); [done|]. simpl. by rewrite Hd.
Qed.

Lemma chat_cases create data w :
  ((∀ d, data ≠ PyDict d)
   ∧ chat create data w = (w, inl (no_attribute (type_name data) (lit "get"))))
  ∨ (∃ d, data = PyDict d
          ∧ truthy (default PyNone (d !! lit "message")) = false
          ∧ chat create data w = (w, inr missing_input))
  ∨ (∃ d v, data = PyDict d ∧ d !! lit "message" = Some v
            ∧ truthy v = true ∧ (∀ s, v ≠ PyStr s)
            ∧ chat create data w
              = (w, inl (no_attribute (type_name v) (lit "startswith"))))
  ∨ (∃ w1, receive data w = (w1, inr None) ∧ accepted data = true
           ∧ chat create data w = complete create w1).
Proof.
  assert ((∃ d, data = PyDict d) ∨ ∀ d, data ≠ PyDict d) as [[d ->]|Hn]
    by (destruct data; try (right; intros ?; discriminate); left; eauto).
  2: { left. split; [done|]. by apply chat_not_object. }
  right. destruct (truthy (default PyNone (d !! lit "message"))) eqn:Hv.
  2: { left. exists d. split_and!; [done..|]. by apply chat_falsy. }
  right. destruct (d !! lit "message") as [v|] eqn:Hd; [simpl in Hv|done].
  assert ((∃ s, v = PyStr s) ∨ ∀ s, v ≠ PyStr s) as [[s ->]|Hs]
    by (destruct v; try (right; intros ?; discriminate); left; eauto).
  2: { left. exists d, v. split_and!; [done..|]. by apply chat_not_str. }
  right. assert (s ≠ []) as Hs by (intros ->; done).
  eexists. split_and!.
  - apply receive_None. by exists d, s.
  - apply accepted_spec. by exists d, s.
  - rewrite chat_split.
    by rewrite (proj2 (receive_None (PyDict d) w _) (ex_intro _ d (ex_intro _ s
                 (conj eq_refl (conj Hd (conj Hs eq_refl)))))).
Qed.

Lemma chat_rejected create data w :
  accepted data = false → (chat create data w).1 = w.
Proof.
  intros Ha.
  destruct (chat_cases create data w)
    as [[_ ->]|[(d & _ & _ & ->)|[(d & v & _ & _ & _ & _ & ->)|(w1 & _ & Hacc & _)]]];
    [done..|congruence].
Qed.

Lemma chat_accepted create data w :
  accepted data = true →
  ∃ w1, receive data w = (w1, inr None) ∧ chat create data w = complete create w1.
Proof.
  intros Ha.
  destruct (chat_cases create data w)
    as [[Hn _]|[(d & -> & Hv & _)|[(d & v & -> & Hd & Hv & Hs & _)|(w1 & Hr & _ & Hc)]]].
  - apply accepted_spec in Ha as (d & s & -> & _). by destruct (Hn d).
  - apply accepted_spec in Ha as (d' & s & [= <-] & Hd & Hs).
    rewrite Hd in Hv. simpl in Hv. by destruct s.
  - apply accepted_spec in Ha as (d' & s & [= <-] & Hd' & _).
    rewrite Hd in Hd'. injection Hd' as ->. by destruct (Hs s).
  - by exists w1.
Qed.



(** X2.  A response is one of three: 400 with the fixed error body and an
    untouched world; 200 with a reply body, the reply being the text of the
    assistant turn that now ends the transcript, after one call; or 500
    with an error body, the transcript ending in a user turn, after one
    call.  In particular the body is a reply exactly when the status is
    200. *)
Theorem response_shapes create data w w' resp :
  chat create data w = (w', inr resp) →
  (resp = Response (error_body (lit "No message provided")) 400 ∧ w' = w)
  ∨ (∃ r, resp = Response (reply_body r) 200
          ∧ last (messages w') = Some (Turn assistant (Text r))
          ∧ length (calls w') = S (length (calls w)))
  ∨ (∃ m c, resp = Response (error_body m) 500
            ∧ last (messages w') = Some (Turn user c)
            ∧ length (calls w') = S (length (calls w))).
Proof.
  destruct (chat_cases create data w)
    as [[Hn ->]|[(d & _ & _ & ->)|[(d & v & -> & Hd & Hv & Hs & ->)|(w1 & Hr & _ & ->)]]].
  - done.
  - intros [= <- <-]. by left.
  - done.
  - rewrite complete_run.
    apply receive_None in Hr as (d & s & _ & _ & _ & ->). simpl.
    destruct (attempt _) as [e|r]; intros [= <- <-]; right; simpl.
    + right. exists (str e), (content_for s). split_and!; [done | |].
      * by rewrite window_last, last_snoc.
      * rewrite length_app. simpl. lia.
    + left. exists r. split_and!; [done | |].
      * by rewrite last_snoc.
      * rewrite length_app. simpl. lia.
Qed.

Lemma response_shapes_witness :
  (Response (reply_body (lit "hello")) 200
   = Response (error_body (lit "No message provided")) 400
   ∧ World [system_turn; say user "hi"; say assistant "hello"]
           [[system_turn; say user "hi"]] = boot)
  ∨ (∃ r, Response (reply_body (lit "hello")) 200 = Response (reply_body r) 200
          ∧ last [system_turn; say user "hi"; say assistant "hello"]
            = Some (Turn assistant (Text r))
          ∧ length [[system_turn; say user "hi"]] = S (length (calls boot)))
  ∨ (∃ m c, Response (reply_body (lit "hello")) 200 = Response (error_body m) 500
            ∧ last [system_turn; say user "hi"; say assistant "hello"]
              = Some (Turn user c)
            ∧ length [[system_turn; say user "hi"]] = S (length (calls boot))).
Proof.
  refine (response_shapes echo (body_with (PyStr (lit "hi"))) boot
            (World [system_turn; say user "hi"; say assistant "hello"]
                   [[system_turn; say user "hi"]])
            (Response (reply_body (lit "hello")) 200) _).
  vm_compute. reflexivity.
Defined.

(** X3.  A request that is not accepted (no object, no [message], a falsy
    or a non-string [message]) leaves no trace: the process that served it
    among others is in the state it would be in without it. *)
Theorem rejected_request_invisible reqs1 rq reqs2 :
  accepted rq.2 = false →
  serve (reqs1 ++ rq :: reqs2) = serve (reqs1 ++ reqs2).
Proof.
  intros Ha. unfold serve. rewrite !foldl_app. simpl.
  unfold handle at 2. by rewrite chat_rejected.
Qed.

Lemma rejected_request_invisible_witness :
  serve (three_rounds ++ (echo, body_with (PyInt 7)) :: three_rounds)
  = serve (three_rounds ++ three_rounds).
Proof.
  apply (rejected_request_invisible three_rounds (echo, body_with (PyInt 7))
           three_rounds).
  reflexivity.
Defined.

(** X4.  The service is called once for each accepted request and never
    otherwise: the number of calls made by a process equals the number of
    accepted requests it has served. *)
Theorem one_call_per_accepted_request reqs :
  length (calls (serve reqs))
  = length (List.filter (λ rq, accepted rq.2) reqs).
Proof.
  unfold serve. induction reqs as [|rq reqs IH] using rev_ind; [done|].
  rewrite foldl_snoc, List.filter_app, length_app, <-IH. simpl.
  unfold handle at 1. destruct (accepted rq.2) eqn:Ha.
  - destruct (chat_accepted rq.1 _ (foldl handle boot reqs) Ha) as (w1 & Hr & ->).
    rewrite complete_run.
    apply receive_None in Hr as (d & s & _ & _ & _ & ->). simpl.
    destruct (attempt _); simpl; rewrite length_app; simpl; lia.
  - rewrite chat_rejected by done. simpl. lia.
Qed.

(** X5.  Between two requests the transcript of a running process holds at
    least one and at most seven turns, and seven is reached (after three
    answered requests). *)
Theorem transcript_at_rest reqs :
  1 ≤ length (messages (serve reqs)) ≤ 7
  ∧ ∃ reqs', length (messages (serve reqs')) = 7.
Proof.
  destruct (anchored_serve reqs) as [Hh Hl _]. apply lookup_lt_Some in Hh.
  split; [lia|]. by exists three_rounds.
Qed.

(** X6.  The number of turns an accepted request leaves: one more than it
    found, capped at six, plus one for the assistant turn when the call
    succeeded. *)
Theorem length_after_request create data w w1 :
  receive data w = (w1, inr None) →
  length (messages (chat create data w).1)
  = Nat.min (length (messages w) + 1) 6
    + (if attempt (create (messages w1)) is inr _ then 1 else 0).
Proof.
  intros Hr. rewrite chat_split, Hr, complete_run.
  apply receive_None in Hr as (d & s & _ & _ & _ & ->). simpl.
  destruct (attempt _); simpl; rewrite ?length_app, length_window, length_app;
    simpl; case_bool_decide; lia.
Qed.

Lemma length_after_request_witness :
  length (messages (chat echo (body_with (PyStr (lit "hi"))) (serve three_rounds)).1)
  = Nat.min (length (messages (serve three_rounds)) + 1) 6
    + (if attempt (echo (messages
                           (World (system_turn :: last_items 5 (messages (serve three_rounds)
                                                                 ++ [say user "hi"]))
                                  (calls (serve three_rounds)))))
       is inr _ then 1 else 0).
Proof.
  apply (length_after_request echo (body_with (PyStr (lit "hi"))) (serve three_rounds)).
  vm_compute. reflexivity.
Defined.

(** ** What the transcript is made of *)

Lemma window_cons m0 l : ∃ k, window (m0 :: l) = m0 :: drop k l.
Proof.
  unfold window. case_bool_decide as H.
  - exists (length l - 5). cbn [length] in *.
    by replace (S (length l) - 5) with (S (length l - 5)) by lia.
  - by exists 0.
Qed.

Lemma appended_not_system t : appended t → turn_role t ≠ system.
Proof. by intros []. Qed.

Lemma strip_blank r : Forall (λ c, isspace c = true) r → strip r = [].
Proof.
  intros H. unfold strip, rstrip.
  assert (lstrip r = []) as ->; [|done].
  induction H as [|c r Hc _ IH]; [done|]. simpl. by rewrite Hc.
Qed.

(** X7.  The transcript of a running process is the system turn of process
    start followed only by turns the handler appended: user turns built
    from a non-empty input (plain text, or the two parts of an image
    request) and assistant turns whose text has no whitespace at either
    end.  No second system turn ever appears. *)
Theorem transcript_shape reqs :
  ∃ rest, messages (serve reqs) = system_turn :: rest
          ∧ Forall appended rest
          ∧ Forall (λ t, turn_role t ≠ system) rest.
Proof.
  assert (∃ rest, messages (serve reqs) = system_turn :: rest ∧ Forall appended rest)
    as (rest & Hm & Hr).
  2: { exists rest. split_and!; [done..|].
       eapply Forall_impl; [exact Hr|]. apply appended_not_system. }
  unfold serve. induction reqs as [|rq reqs (rest & Hm & Hrest)] using rev_ind.
  - by exists [].
  - rewrite foldl_snoc. unfold handle at 1. set (w := foldl handle boot reqs) in *.
    destruct (accepted rq.2) eqn:Ha; [|rewrite chat_rejected by done; by exists rest].
    destruct (chat_accepted rq.1 _ w Ha) as (w1 & Hr & ->).
    rewrite complete_run.
    apply receive_None in Hr as (d & s & _ & _ & Hs & ->). simpl. rewrite Hm.
    destruct (window_cons system_turn (rest ++ [Turn user (content_for s)]))
      as [k Hk].
    rewrite <-app_comm_cons, Hk.
    assert (Forall appended (drop k (rest ++ [Turn user (content_for s)]))) as Hd.
    { apply Forall_drop, Forall_app. split; [done|].
      apply Forall_singleton. by constructor. }
    destruct (attempt _) as [e|r] eqn:Hatt; simpl.
    + by eexists.
    + eexists. split; [by rewrite app_comm_cons|].
      apply Forall_app. split; [done|]. apply Forall_singleton.
      unfold attempt in Hatt. destruct (rq.1 _) as [e|choices]; [done|].
      unfold reply_text in Hatt. destruct (item choices 0) as [e|[t|]]; [done| |done].
      injection Hatt as <-. destruct (strip_spec t) as (_ & Hh & Hl).
      by constructor.
Qed.

Lemma no_double_assistant_tail a l :
  no_double_assistant (a :: l) = true → no_double_assistant l = true.
Proof. destruct l as [|b l]; [done|]. simpl. by intros [_ ?]%andb_true_iff. Qed.

Lemma no_double_assistant_drop k l :
  no_double_assistant l = true → no_double_assistant (drop k l) = true.
Proof.
  revert l. induction k as [|k IH]; intros [|a l] H; try done.
  simpl. apply IH. by eapply no_double_assistant_tail.
Qed.

Lemma no_double_assistant_cons a l :
  is_assistant a = false → no_double_assistant l = true →
  no_double_assistant (a :: l) = true.
Proof.
  intros Ha Hl. destruct l as [|b l]; [done|].
  change (negb (is_assistant a && is_assistant b) && no_double_assistant (b :: l) = true).
  by rewrite Ha, Hl.
Qed.

Lemma no_double_assistant_snoc l t :
  no_double_assistant l = true →
  (is_assistant t = false ∨ ∃ u, last l = Some u ∧ is_assistant u = false) →
  no_double_assistant (l ++ [t]) = true.
Proof.
  induction l as [|a [|b l] IH]; intros Hl Ht.
  - done.
  - simpl. destruct Ht as [->|(u & [= <-] & ->)]; [|done].
    by rewrite andb_false_r.
  - change ((a :: b :: l) ++ [t]) with (a :: b :: (l ++ [t])).
    simpl in Hl |- *. apply andb_true_iff in Hl as [-> Hl]. simpl.
    apply IH; [done|]. by rewrite last_cons_cons in Ht.
Qed.

(** X8.  In the transcript of a running process no assistant turn directly
    follows another assistant turn.  User turns do follow one another: a
    failed call leaves its user turn in place and the next request appends
    its own. *)
Theorem never_two_assistant_turns reqs :
  no_double_assistant (messages (serve reqs)) = true
  ∧ ∃ reqs' i u1 u2,
      messages (serve reqs') !! i = Some u1
      ∧ messages (serve reqs') !! (S i) = Some u2
      ∧ is_user u1 = true ∧ is_user u2 = true.
Proof.
  split.
  2: { exists unanswered_then_asked, 1. by do 2 eexists. }
  unfold serve. induction reqs as [|rq reqs IH] using rev_ind; [done|].
  rewrite foldl_snoc. unfold handle at 1.
  pose proof (anchored_serve reqs) as [Hh _ _]. unfold serve in Hh.
  set (w := foldl handle boot reqs) in *.
  destruct (accepted rq.2) eqn:Ha; [|by rewrite chat_rejected].
  destruct (chat_accepted rq.1 _ w Ha) as (w1 & Hr & ->).
  rewrite complete_run.
  apply receive_None in Hr as (d & s & _ & _ & Hs & ->). simpl.
  destruct (messages w) as [|m0 rest] eqn:Hm; [done|]. injection Hh as ->.
  set (u := Turn user (content_for s)).
  assert (no_double_assistant (window ((system_turn :: rest) ++ [u])) = true) as Hw.
  { destruct (window_cons system_turn (rest ++ [u])) as [k Hk].
    rewrite <-app_comm_cons, Hk. apply no_double_assistant_cons; [done|].
    apply no_double_assistant_drop, no_double_assistant_snoc; [|by left].
    by eapply no_double_assistant_tail. }
  destruct (attempt _); simpl; [done|].
  apply no_double_assistant_snoc; [done|]. right. exists u. split; [|done].
  rewrite window_last. apply (last_snoc u (system_turn :: rest)).
Qed.

(** ** The reply *)

(** X9.  A first candidate made of whitespace only (the empty text
    included) is still a success: the handler answers 200 with the empty
    reply and appends an assistant turn with empty text. *)
Theorem blank_reply create data w w1 r rest :
  receive data w = (w1, inr None) →
  create (messages w1) = Completion (Some r :: rest) →
  Forall (λ c, isspace c = true) r →
  chat create data w
  = (World (messages w1 ++ [Turn assistant (Text [])]) (calls w ++ [messages w1]),
     inr (Response (reply_body []) 200)).
Proof.
  intros Hr Hc Hb. rewrite chat_split, Hr, complete_run, Hc. simpl.
  rewrite (strip_blank r Hb).
  by apply receive_None in Hr as (d & s & _ & _ & _ & ->).
Qed.

Lemma blank_reply_witness :
  chat blank (body_with (PyStr (lit "hi"))) boot
  = (World ([system_turn; say user "hi"] ++ [Turn assistant (Text [])])
           ([] ++ [[system_turn; say user "hi"]]),
     inr (Response (reply_body []) 200)).
Proof.
  refine (blank_reply blank (body_with (PyStr (lit "hi"))) boot
            (World [system_turn; say user "hi"] []) (lit "   ") [Some (lit "x")] _ _ _).
  - vm_compute. reflexivity.
  - reflexivity.
  - repeat constructor.
Defined.

(** X10.  Only the first candidate counts: two services whose responses to
    the transcript sent start with the same candidate lead the handler to
    the same response and the same world. *)
Theorem first_candidate_only create create' data w w1 c rest rest' :
  receive data w = (w1, inr None) →
  create (messages w1) = Completion (c :: rest) →
  create' (messages w1) = Completion (c :: rest') →
  chat create data w = chat create' data w.
Proof.
  intros Hr Hc Hc'. rewrite !chat_split, Hr, !complete_run, Hc, Hc'.
  by destruct c.
Qed.

Lemma first_candidate_only_witness :
  chat blank (body_with (PyStr (lit "hi"))) boot
  = chat (λ _, Completion [Some (lit "   ")]) (body_with (PyStr (lit "hi"))) boot.
Proof.
  refine (first_candidate_only blank (λ _, Completion [Some (lit "   ")])
            (body_with (PyStr (lit "hi"))) boot
            (World [system_turn; say user "hi"] []) (Some (lit "   "))
            [Some (lit "x")] [] _ _ _).
  - vm_compute. reflexivity.
  - reflexivity.
  - reflexivity.
Defined.

(** X11.  The content built for an input determines the input: two strings
    that are given the same content are the same string. *)
Theorem classify_injective s s' :
  classify (PyStr s) = classify (PyStr s') → s = s'.
Proof.
  simpl. destruct (startswith s (lit "http")), (startswith s' (lit "http"));
    intros H; by simplify_eq.
Qed.

Lemma classify_injective_witness : lit "http://a" = lit "http://a".
Proof.
  exact (classify_injective (lit "http://a") (lit "http://a") eq_refl).
Defined.
